(** * iosim: device resolution and pairing (src/isim/device.py)

    A shallow embedding of the [isim.device] module: the [Device] class
    with its [pair] method, and the module functions [from_simctl_info],
    [list_all], [from_identifier] and [from_name].  Calls into the
    [isim] package that reach the external [simctl] tool are modelled
    as the snapshot they return ([list_all_raw]) or as a visible
    request of the program ([pair_devices]).  The methods that change
    the device ([refresh_state], [runtime], [upgrade]) take the answers
    of the [isim] package as parameters and pass the device along. *)

From Stdlib Require Import String Ascii List Bool Arith Lia Permutation.
Import ListNotations.
Open Scope string_scope.
Open Scope list_scope.

Set Implicit Arguments.

(** ** Python strings: the [in] operator *)

(** [sub in s] on two [str] values: [sub] occurs in [s] as a contiguous,
    case-sensitive substring. *)
Fixpoint str_in (sub s : string) : bool :=
  String.prefix sub s ||
  match s with
  | EmptyString => false
  | String _ s' => str_in sub s'
  end.

(** ** Python dictionaries, in insertion order *)

Module PyDict.

(** A [Dict[str, V]]: the entries in insertion order. *)
Definition dict (V : Type) := list (string * V).

Section Ops.
Variable V : Type.

(** [d[k]]; [None] stands for [KeyError]. *)
Fixpoint getitem (d : dict V) (k : string) : option V :=
  match d with
  | [] => None
  | (k', v) :: d' => if String.eqb k' k then Some v else getitem d' k
  end.

(** [d[k] = v]: an existing key keeps its position, a new key goes
    last. *)
Fixpoint setitem (d : dict V) (k : string) (v : V) : dict V :=
  match d with
  | [] => [(k, v)]
  | (k', v') :: d' =>
      if String.eqb k' k then (k', v) :: d' else (k', v') :: setitem d' k v
  end.

Definition keys (d : dict V) : list string := map fst d.

Definition items (d : dict V) : list (string * V) := d.
End Ops.

End PyDict.
Import PyDict.

(** ** Exceptions of the module *)

Inductive exn_class : Type :=
| MultipleMatchesException
| DeviceNotFoundError
| InvalidDeviceError.

(** An exception object: its class and the message it was built with. *)
Record exn : Type := mkExn { exn_kind : exn_class; exn_msg : string }.

(** ** The runtime object, as far as this module reads it *)

Module runtime.
(** [isim.runtime.Runtime]; [from_name] below reads only [runtime.name]. *)
Record Runtime : Type := mkRuntime { name : string }.
End runtime.

(** ** Devices *)

(** One entry of the [simctl] listing: the dictionary with the keys
    ["state"], ["availability"], ["name"] and ["udid"] that
    [Device._update_info] reads. *)
Record DeviceInfo : Type := mkDeviceInfo {
  di_state : string;
  di_availability : string;
  di_name : string;
  di_udid : string
}.

Record Device : Type := mkDevice {
  runtime_name : string;
  raw_info : DeviceInfo;
  state : string;
  availability : string;
  name : string;
  udid : string;
  _runtime : option runtime.Runtime
}.

(** [Device.__init__(device_info, runtime_name)], with [_update_info]
    inlined. *)
Definition Device_init (device_info : DeviceInfo) (runtime_name : string)
  : Device :=
  {| runtime_name := runtime_name;
     _runtime := None;
     raw_info := device_info;
     state := di_state device_info;
     availability := di_availability device_info;
     name := di_name device_info;
     udid := di_udid device_info |}.

(** ** Programs: return, raise, or hand over to [isim.pair_devices] *)

Inductive sim (A : Type) : Type :=
| Ret (a : A)
| Raise (e : exn)
| PairDevices (watch phone : Device) (k : string -> sim A).

Arguments Ret {A} a.
Arguments Raise {A} e.
Arguments PairDevices {A} watch phone k.

(** The downstream pairing request a program starts with, if any, as
    (watch, phone). *)
Definition pairing_request {A : Type} (p : sim A) : option (Device * Device) :=
  match p with
  | PairDevices watch phone _ => Some (watch, phone)
  | _ => None
  end.

(** The exception a program ends with, if it raises before any request. *)
Definition raised {A : Type} (p : sim A) : option exn :=
  match p with
  | Raise e => Some e
  | _ => None
  end.

(** ** [Device.pair] *)

(** The locals [(watch, phone)] of [pair] when it reaches its test
    [watch is None or phone is None]. *)
Definition pair_roles (self other_device : Device)
  : option Device * option Device :=
  let watch : option Device := None in
  let phone : option Device := None in
  let phone := if str_in "iOS" (runtime_name self) then Some self else phone in
  let phone :=
    if str_in "iOS" (runtime_name other_device) then Some other_device
    else phone in
  let watch :=
    if str_in "watchOS" (runtime_name self) then Some self else watch in
  let watch :=
    if str_in "watchOS" (runtime_name other_device) then Some other_device
    else watch in
  (watch, phone).

Definition pair (self other_device : Device) : sim string :=
  match pair_roles self other_device with
  | (Some watch, Some phone) => PairDevices watch phone Ret
  | _ =>
      Raise (mkExn InvalidDeviceError
               "One device should be a watch and the other a phone")
  end.

(** The two substring tests of [pair], as properties of one record. *)
Definition phone_capable (d : Device) : bool := str_in "iOS" (runtime_name d).
Definition watch_capable (d : Device) : bool :=
  str_in "watchOS" (runtime_name d).

(** ** The inventory *)

(** [from_simctl_info(info)]. *)
Definition from_simctl_info (info : dict (list DeviceInfo))
  : dict (list Device) :=
  fold_left
    (fun all_devices runtime_name =>
       match getitem info runtime_name with
       | Some runtime_devices_info =>
           let devices :=
             fold_left
               (fun devices device_info =>
                  devices ++ [Device_init device_info runtime_name])
               runtime_devices_info [] in
           setitem all_devices runtime_name devices
       | None => all_devices
       end)
    (keys info) [].

(** Every device of an inventory, runtime by runtime. *)
Definition all_devices (inv : dict (list Device)) : list Device :=
  flat_map snd (items inv).

Section Inventory.

(** What [isim.list_type(SimulatorControlType.device)] answers. *)
Variable list_all_raw : dict (list DeviceInfo).

Definition list_all : dict (list Device) := from_simctl_info list_all_raw.

(** [from_identifier(identifier)]. *)
Fixpoint scan_devices (identifier : string) (devices : list Device)
  : option Device :=
  match devices with
  | [] => None
  | device :: rest =>
      if String.eqb (udid device) identifier then Some device
      else scan_devices identifier rest
  end.

Fixpoint scan_items (identifier : string)
         (its : list (string * list Device)) : option Device :=
  match its with
  | [] => None
  | (_, devices) :: rest =>
      match scan_devices identifier devices with
      | Some device => Some device
      | None => scan_items identifier rest
      end
  end.

Definition from_identifier (identifier : string) : sim Device :=
  match scan_items identifier (items list_all) with
  | Some device => Ret device
  | None =>
      Raise (mkExn DeviceNotFoundError ("No device with ID: " ++ identifier))
  end.

(** The list [matching_name_devices] that [from_name] builds. *)
Definition matching_name_devices (name0 : string)
  : list (Device * string) :=
  fold_left
    (fun acc (it : string * list Device) =>
       let (runtime_name, runtime_devices) := it in
       fold_left
         (fun acc device =>
            if String.eqb (name device) name0
            then acc ++ [(device, runtime_name)]
            else acc)
         runtime_devices acc)
    (items list_all) [].

(** [from_name(name, runtime=None)]. *)
Definition from_name (name0 : string) (runtime : option runtime.Runtime)
  : sim (option Device) :=
  match matching_name_devices name0 with
  | [] => Ret None
  | [m] => Ret (Some (fst m))
  | _ :: _ :: _ =>
      match runtime with
      | None =>
          Raise (mkExn MultipleMatchesException
                   "Multiple device matches, but no runtime supplied")
      | Some runtime =>
          let matching_devices :=
            filter (fun device => String.eqb (snd device) (runtime.name runtime))
                   (matching_name_devices name0) in
          match matching_devices with
          | [] => Ret None
          | _ :: _ :: _ =>
              Raise (mkExn MultipleMatchesException
                       "Multiple device matches even with runtime supplied")
          | m :: _ => Ret (Some (fst m))
          end
      end
  end.

(** The devices of the inventory that carry a given name. *)
Definition devices_named (name0 : string) : list Device :=
  filter (fun d => String.eqb (name d) name0) (all_devices list_all).

End Inventory.

(** An inventory is keyed when every device sits under the key that
    its [runtime_name] field holds. *)
Definition keyed (inv : dict (list Device)) : Prop :=
  forall k ds d, In (k, ds) inv -> In d ds -> runtime_name d = k.

(** The two messages of [MultipleMatchesException]. *)
Definition msg_no_runtime : string :=
  "Multiple device matches, but no runtime supplied".
Definition msg_even_with_runtime : string :=
  "Multiple device matches even with runtime supplied".

(** ** Sample devices *)

Definition sample_info (nm id : string) : DeviceInfo :=
  mkDeviceInfo "Shutdown" "(available)" nm id.

Definition an_iphone : Device :=
  Device_init (sample_info "iPhone 8" "AAAA-0001")
              "com.apple.CoreSimulator.SimRuntime.iOS-12-1".

Definition another_iphone : Device :=
  Device_init (sample_info "iPhone X" "AAAA-0002")
              "com.apple.CoreSimulator.SimRuntime.iOS-11-4".

Definition a_watch : Device :=
  Device_init (sample_info "Apple Watch Series 4" "BBBB-0001")
              "com.apple.CoreSimulator.SimRuntime.watchOS-5-1".

(** A runtime key that carries both markers. *)
Definition a_hybrid : Device :=
  Device_init (sample_info "Bundle" "CCCC-0001") "iOS 12.1 with watchOS 5.1".

Definition a_tv : Device :=
  Device_init (sample_info "Apple TV" "DDDD-0001")
              "com.apple.CoreSimulator.SimRuntime.tvOS-12-1".

(** ** Sample inventories *)

Definition ios_12_1 : string := "com.apple.CoreSimulator.SimRuntime.iOS-12-1".
Definition ios_11_4 : string := "com.apple.CoreSimulator.SimRuntime.iOS-11-4".

(** Two devices named "iPhone 8", one per runtime. *)
Definition raw_two_runtimes : dict (list DeviceInfo) :=
  [ (ios_12_1, [sample_info "iPhone 8" "AAAA-0001";
                sample_info "iPad Air" "AAAA-0003"]);
    (ios_11_4, [sample_info "iPhone 8" "AAAA-0002"]) ].

(** Three devices named "iPhone 8", two of them in one runtime. *)
Definition raw_same_runtime : dict (list DeviceInfo) :=
  [ (ios_12_1, [sample_info "iPhone 8" "AAAA-0001";
                sample_info "iPhone 8" "AAAA-0004"]);
    (ios_11_4, [sample_info "iPhone 8" "AAAA-0002"]) ].

Definition the_12_1_iphone : Device :=
  Device_init (sample_info "iPhone 8" "AAAA-0001") ios_12_1.

Definition the_11_4_iphone : Device :=
  Device_init (sample_info "iPhone 8" "AAAA-0002") ios_11_4.

Definition the_ipad : Device :=
  Device_init (sample_info "iPad Air" "AAAA-0003") ios_12_1.

(** The class of the exception a program raises, if it raises. *)
Definition raised_kind {A : Type} (p : sim A) : option exn_class :=
  option_map exn_kind (raised p).

Unset Implicit Arguments.

(** ** Methods that change the device *)

(** [Device._update_info(device_info)]: the four listed fields and
    [raw_info] are replaced, the runtime name and the cached runtime
    stay. *)
Definition _update_info (self : Device) (device_info : DeviceInfo) : Device :=
  {| runtime_name := runtime_name self;
     _runtime := _runtime self;
     raw_info := device_info;
     state := di_state device_info;
     availability := di_availability device_info;
     name := di_name device_info;
     udid := di_udid device_info |}.

(** [Device.__str__()]. *)
Definition Device_str (self : Device) : string :=
  name self ++ ": " ++ udid self.

(** How a method ends when it does not return: an exception of the
    [isim] package that passes through, or the plain [Exception] that
    [refresh_state] raises itself. *)
Inductive failure (Ext : Type) : Type :=
| Passed (e : Ext)
| Exception (msg : string).

Arguments Passed {Ext} e.
Arguments Exception {Ext} msg.

(** The calls a caller can make on a device to change it. *)
Inductive method_call : Type :=
| call_runtime
| call_upgrade (new_runtime : runtime.Runtime)
| call_refresh_state.

Section Methods.

(** The exceptions of the [isim] package, and its three functions that
    the methods below call: [isim.device_info(udid)], which answers a
    dictionary or [None], [isim.runtime.from_name(name)], and
    [isim.upgrade_device(device, runtime)], which answers nothing
    ([None] below) or raises. *)
Variable Ext : Type.
Variable isim_device_info : string -> Ext + option DeviceInfo.
Variable isim_runtime_from_name : string -> Ext + runtime.Runtime.
Variable isim_upgrade_device : Device -> runtime.Runtime -> option Ext.

(** [Device.refresh_state()]: the device afterwards, or the failure. *)
Definition refresh_state (self : Device) : failure Ext + Device :=
  match isim_device_info (udid self) with
  | inl e => inl (Passed e)
  | inr None => inl (Exception "Could not determine device info.")
  | inr (Some device_info) => inr (_update_info self device_info)
  end.

(** [Device.runtime()]: what the call answers, and the device
    afterwards. *)
Definition Device_runtime (self : Device)
  : (Ext + runtime.Runtime) * Device :=
  match _runtime self with
  | None =>
      match isim_runtime_from_name (runtime_name self) with
      | inl e => (inl e, self)
      | inr r =>
          (inr r,
           {| runtime_name := runtime_name self;
              _runtime := Some r;
              raw_info := raw_info self;
              state := state self;
              availability := availability self;
              name := name self;
              udid := udid self |})
      end
  | Some r => (inr r, self)
  end.

(** [Device.upgrade(runtime)]: the device afterwards, or the exception
    of [isim.upgrade_device]. *)
Definition upgrade (self : Device) (runtime : runtime.Runtime)
  : Ext + Device :=
  match isim_upgrade_device self runtime with
  | Some e => inl e
  | None =>
      inr {| runtime_name := runtime.name runtime;
             _runtime := None;
             raw_info := raw_info self;
             state := state self;
             availability := availability self;
             name := name self;
             udid := udid self |}
  end.

(** The device after one call, whether the call returned or raised. *)
Definition after_call (self : Device) (c : method_call) : Device :=
  match c with
  | call_runtime => snd (Device_runtime self)
  | call_upgrade new_runtime =>
      match upgrade self new_runtime with
      | inr self' => self'
      | inl _ => self
      end
  | call_refresh_state =>
      match refresh_state self with
      | inr self' => self'
      | inl _ => self
      end
  end.



End Methods.

(** Sample answers of the [isim] package: every runtime name is known,
    every upgrade goes through, and a device info is known for one udid. *)
Definition known_runtime (nm : string) : unit + runtime.Runtime :=
  inr (runtime.mkRuntime nm).

Definition no_runtime (nm : string) : unit + runtime.Runtime := inl tt.

Definition upgrade_ok (d : Device) (r : runtime.Runtime) : option unit := None.

Definition info_booted (id : string) : unit + option DeviceInfo :=
  if String.eqb id "AAAA-0001"
  then inr (Some (mkDeviceInfo "Booted" "(available)" "iPhone 8" "AAAA-0001"))
  else inr None.

(** * Facts about the substring test *)

Lemma str_in_unfold sub a s :
  str_in sub (String a s) = String.prefix sub (String a s) || str_in sub s.
Proof. reflexivity. Qed.

Lemma prefix_cons_inv a t b s :
  String.prefix (String a t) (String b s) = true ->
  a = b /\ String.prefix t s = true.
Proof.
  simpl. destruct (ascii_dec a b) as [e | n]; [auto | discriminate].
Qed.

Lemma prefix_length sub : forall s,
  String.prefix sub s = true -> String.length sub <= String.length s.
Proof.
  induction sub as [| a t IH]; intros s H; simpl.
  - lia.
  - destruct s as [| b s]; [discriminate H |].
    apply prefix_cons_inv in H. destruct H as [_ H].
    apply IH in H. simpl. lia.
Qed.

Lemma str_in_length sub : forall s,
  str_in sub s = true -> String.length sub <= String.length s.
Proof.
  induction s as [| a s IH]; intros H.
  - simpl in H. rewrite orb_false_r in H. now apply prefix_length.
  - rewrite str_in_unfold in H. apply orb_true_iff in H.
    destruct H as [H | H].
    + now apply prefix_length.
    + apply IH in H. simpl. lia.
Qed.

(** Reads the leading characters of a string off a [prefix] hypothesis. *)
Ltac peel H :=
  repeat match type of H with
  | String.prefix (String _ _) ?s = true =>
      destruct s; [discriminate H |];
      apply prefix_cons_inv in H;
      let E := fresh "E" in destruct H as [E H]; subst
  end.

(** Walks a substring test past leading characters that cannot start
    the marker. *)
Ltac skip H :=
  repeat (rewrite str_in_unfold in H;
          apply orb_true_iff in H;
          destruct H as [H | H];
          [apply prefix_cons_inv in H; destruct H as [H _]; discriminate H |]).

(** The two markers never share a position: an identifier that holds
    both holds them side by side. *)
Lemma both_markers_length : forall s,
  str_in "iOS" s = true -> str_in "watchOS" s = true ->
  10 <= String.length s.
Proof.
  induction s as [| a s IH]; intros Hi Hw.
  - discriminate Hi.
  - rewrite str_in_unfold in Hi, Hw.
    apply orb_true_iff in Hi. apply orb_true_iff in Hw.
    destruct Hi as [Hi | Hi], Hw as [Hw | Hw].
    + apply prefix_cons_inv in Hi. apply prefix_cons_inv in Hw.
      destruct Hi as [Hi _], Hw as [Hw _]. congruence.
    + apply prefix_cons_inv in Hi. destruct Hi as [_ Hi].
      peel Hi. skip Hw.
      apply str_in_length in Hw. simpl in *. lia.
    + apply prefix_cons_inv in Hw. destruct Hw as [_ Hw].
      peel Hw. skip Hi.
      apply str_in_length in Hi. simpl in *. lia.
    + specialize (IH Hi Hw). simpl. lia.
Qed.

(** * Pairing *)

Section PairFacts.

Variables self other_device : Device.

Lemma pair_roles_watch :
  fst (pair_roles self other_device) =
  if watch_capable other_device then Some other_device
  else if watch_capable self then Some self else None.
Proof. reflexivity. Qed.

Lemma pair_roles_phone :
  snd (pair_roles self other_device) =
  if phone_capable other_device then Some other_device
  else if phone_capable self then Some self else None.
Proof. reflexivity. Qed.

Lemma pair_calls watch phone :
  pair_roles self other_device = (Some watch, Some phone) ->
  pair self other_device = PairDevices watch phone Ret.
Proof. unfold pair. now intros ->. Qed.

Lemma pair_raises :
  fst (pair_roles self other_device) = None \/
  snd (pair_roles self other_device) = None ->
  pair self other_device =
  Raise (mkExn InvalidDeviceError
           "One device should be a watch and the other a phone").
Proof.
  unfold pair. destruct (pair_roles self other_device) as [[w |] [p |]];
    simpl; intros [H | H]; try discriminate; reflexivity.
Qed.

End PairFacts.

(** Rewrites the four substring tests of [pair_roles] with what is known
    of the two devices. *)
Ltac roles :=
  unfold pair_roles, phone_capable, watch_capable in *;
  repeat match goal with
  | H : str_in _ _ = _ |- _ => rewrite H
  end.

Lemma roles_unassigned_iff (a b : Device) :
  (fst (pair_roles a b) = None \/ snd (pair_roles a b) = None) <->
  (watch_capable a = false /\ watch_capable b = false) \/
  (phone_capable a = false /\ phone_capable b = false).
Proof.
  rewrite pair_roles_watch, pair_roles_phone.
  destruct (watch_capable a), (watch_capable b),
           (phone_capable a), (phone_capable b);
    split; intros [H | H]; try discriminate H; try (destruct H; discriminate);
    auto.
Qed.

(** C7: with one device whose runtime identifier holds "iOS" and not
    "watchOS" and one whose identifier holds "watchOS" and not "iOS",
    [pair] succeeds whichever of the two is the receiver: the iOS
    device gets the phone role, the watchOS device the watch role, and
    the request to [pair_devices] carries the watch first and the phone
    second. *)
Theorem pair_phone_with_watch (p w : Device) :
  phone_capable p = true -> watch_capable p = false ->
  watch_capable w = true -> phone_capable w = false ->
  pair_roles p w = (Some w, Some p) /\
  pair_roles w p = (Some w, Some p) /\
  pair p w = PairDevices w p Ret /\
  pair w p = PairDevices w p Ret /\
  pairing_request (pair p w) = Some (w, p) /\
  pairing_request (pair w p) = Some (w, p).
Proof.
  intros Hp Hpw Hw Hwp.
  assert (R1 : pair_roles p w = (Some w, Some p)) by (roles; reflexivity).
  assert (R2 : pair_roles w p = (Some w, Some p)) by (roles; reflexivity).
  rewrite (pair_calls _ _ _ _ R1), (pair_calls _ _ _ _ R2). simpl. auto 6.
Qed.

Lemma pair_phone_with_watch_witness :
  pair an_iphone a_watch = PairDevices a_watch an_iphone Ret /\
  pair a_watch an_iphone = PairDevices a_watch an_iphone Ret.
Proof.
  destruct (pair_phone_with_watch an_iphone a_watch) as (_ & _ & H1 & H2 & _);
    try reflexivity.
  split; [exact H1 | exact H2].
Defined.

(** C8: whenever the watch role or the phone role is still unassigned
    after the four tests, [pair] raises [InvalidDeviceError] and makes
    no request to [pair_devices]. *)
Theorem pair_incompatible (a b : Device) :
  fst (pair_roles a b) = None \/ snd (pair_roles a b) = None ->
  pair a b =
    Raise (mkExn InvalidDeviceError
             "One device should be a watch and the other a phone") /\
  raised_kind (pair a b) = Some InvalidDeviceError /\
  pairing_request (pair a b) = None.
Proof.
  intros H. rewrite (pair_raises _ _ H). repeat split.
Qed.

(** Two devices that both hold "iOS" and no "watchOS". *)
Lemma pair_incompatible_witness :
  phone_capable an_iphone = true /\ phone_capable another_iphone = true /\
  watch_capable an_iphone = false /\ watch_capable another_iphone = false /\
  raised_kind (pair an_iphone another_iphone) = Some InvalidDeviceError /\
  pairing_request (pair an_iphone another_iphone) = None.
Proof.
  do 4 (split; [reflexivity |]).
  destruct (pair_incompatible an_iphone another_iphone) as (_ & H1 & H2).
  - left. reflexivity.
  - split; [exact H1 | exact H2].
Defined.

(** C10: with one device whose runtime identifier holds both markers
    and one whose identifier holds neither, [pair] does not raise: the
    first device is assigned the watch role and the phone role, the
    second gets no role, and [pair_devices] is requested with the first
    device in both positions. *)
Theorem pair_hybrid_with_unmarked (d m : Device) :
  phone_capable d = true -> watch_capable d = true ->
  phone_capable m = false -> watch_capable m = false ->
  pair_roles d m = (Some d, Some d) /\
  pair_roles m d = (Some d, Some d) /\
  pair d m = PairDevices d d Ret /\
  pair m d = PairDevices d d Ret /\
  raised (pair d m) = None /\ raised (pair m d) = None /\
  Some m <> Some d.
Proof.
  intros Hdp Hdw Hmp Hmw.
  assert (R1 : pair_roles d m = (Some d, Some d)) by (roles; reflexivity).
  assert (R2 : pair_roles m d = (Some d, Some d)) by (roles; reflexivity).
  rewrite (pair_calls _ _ _ _ R1), (pair_calls _ _ _ _ R2). simpl.
  split; [exact R1 |]. split; [exact R2 |].
  do 4 (split; [reflexivity |]).
  intros E. injection E as ->. congruence.
Qed.

Lemma pair_hybrid_with_unmarked_witness :
  pair a_hybrid a_tv = PairDevices a_hybrid a_hybrid Ret /\
  pair a_tv a_hybrid = PairDevices a_hybrid a_hybrid Ret.
Proof.
  destruct (pair_hybrid_with_unmarked a_hybrid a_tv) as (_ & _ & H1 & H2 & _);
    try reflexivity.
  split; [exact H1 | exact H2].
Defined.

(** C1, as the code has it: with one device whose runtime identifier
    holds both markers and one whose identifier holds "iOS" only, [pair]
    succeeds in both orders and the first device is the watch in both.
    The iOS-only device is the phone when the dual-marker device is the
    receiver; when the iOS-only device is the receiver, the test on the
    argument comes last and the dual-marker device is the phone too. *)
Theorem pair_hybrid_with_phone (d p : Device) :
  phone_capable d = true -> watch_capable d = true ->
  phone_capable p = true -> watch_capable p = false ->
  pair_roles d p = (Some d, Some p) /\
  pair_roles p d = (Some d, Some d) /\
  pair d p = PairDevices d p Ret /\
  pair p d = PairDevices d d Ret.
Proof.
  intros Hdp Hdw Hpp Hpw.
  assert (R1 : pair_roles d p = (Some d, Some p)) by (roles; reflexivity).
  assert (R2 : pair_roles p d = (Some d, Some d)) by (roles; reflexivity).
  rewrite (pair_calls _ _ _ _ R1), (pair_calls _ _ _ _ R2). auto.
Qed.

Lemma pair_hybrid_with_phone_witness :
  pair a_hybrid an_iphone = PairDevices a_hybrid an_iphone Ret /\
  pair an_iphone a_hybrid = PairDevices a_hybrid a_hybrid Ret.
Proof.
  destruct (pair_hybrid_with_phone a_hybrid an_iphone) as (_ & _ & H1 & H2);
    try reflexivity.
  split; [exact H1 | exact H2].
Defined.

(** C1 as stated fails when the iOS-only device is the receiver: the
    phone role goes to the dual-marker argument, not to the receiver. *)
Lemma pair_phone_receiver_loses_role :
  phone_capable a_hybrid = true /\ watch_capable a_hybrid = true /\
  phone_capable an_iphone = true /\ watch_capable an_iphone = false /\
  pair_roles an_iphone a_hybrid = (Some a_hybrid, Some a_hybrid) /\
  snd (pair_roles an_iphone a_hybrid) <> Some an_iphone /\
  pairing_request (pair an_iphone a_hybrid) <> Some (a_hybrid, an_iphone).
Proof.
  do 5 (split; [reflexivity |]).
  split; intros H; vm_compute in H; discriminate H.
Qed.

(** C3 as stated fails on a runtime identifier that holds both markers. *)
Lemma hybrid_is_both :
  phone_capable a_hybrid = true /\ watch_capable a_hybrid = true.
Proof. split; reflexivity. Qed.

(** C3, as the code has it: the two tests are independent substring
    tests, so a record is phone-capable, watch-capable, neither, or
    both; it is both only when its runtime identifier holds the two
    markers at separate positions, which takes at least ten characters.
    A record with a shorter runtime identifier is never both. *)
Theorem short_runtime_never_both (d : Device) :
  String.length (runtime_name d) < 10 ->
  phone_capable d && watch_capable d = false.
Proof.
  intros Hlen. unfold phone_capable, watch_capable.
  destruct (str_in "iOS" (runtime_name d)) eqn:Hi; [| reflexivity].
  destruct (str_in "watchOS" (runtime_name d)) eqn:Hw; [| reflexivity].
  pose proof (both_markers_length _ Hi Hw). lia.
Qed.

Lemma short_runtime_never_both_witness :
  phone_capable (Device_init (sample_info "iPhone 8" "AAAA-0001") "iOS 12.1")
  && watch_capable (Device_init (sample_info "iPhone 8" "AAAA-0001") "iOS 12.1")
  = false.
Proof.
  apply short_runtime_never_both. simpl. lia.
Defined.

(** * The inventory is keyed by runtime *)

Lemma fold_append_map (A B : Type) (f : A -> B) (l : list A) :
  forall acc, fold_left (fun ds x => ds ++ [f x]) l acc = acc ++ map f l.
Proof.
  induction l as [| x l IH]; intros acc; simpl.
  - now rewrite app_nil_r.
  - rewrite IH, <- app_assoc. reflexivity.
Qed.

Lemma setitem_keyed (inv : dict (list Device)) k ds :
  keyed inv -> (forall d, In d ds -> runtime_name d = k) ->
  keyed (setitem inv k ds).
Proof.
  induction inv as [| [k' v'] inv IH]; intros Hinv Hds; simpl.
  - intros k0 ds0 d [E | []] Hd. injection E as <- <-. now apply Hds.
  - assert (Htl : keyed inv).
    { intros k0 ds0 d Hin. apply (Hinv k0 ds0 d). now right. }
    destruct (String.eqb k' k) eqn:Ek.
    + apply String.eqb_eq in Ek. subst k'.
      intros k0 ds0 d [E | Hin] Hd.
      * injection E as <- <-. now apply Hds.
      * now apply (Htl k0 ds0 d).
    + intros k0 ds0 d [E | Hin] Hd.
      * apply (Hinv k0 ds0 d); [now left | exact Hd].
      * now apply (IH Htl Hds k0 ds0 d).
Qed.

Lemma from_simctl_info_keyed info : keyed (from_simctl_info info).
Proof.
  unfold from_simctl_info.
  assert (Hnil : keyed []) by (intros k ds d []).
  revert Hnil. generalize (@nil (string * list Device)).
  induction (keys info) as [| k ks IH]; intros acc Hacc; simpl.
  - exact Hacc.
  - apply IH. destruct (getitem info k) as [l |]; [| exact Hacc].
    apply setitem_keyed; [exact Hacc |].
    intros d Hd. rewrite fold_append_map in Hd. simpl in Hd.
    apply in_map_iff in Hd. destruct Hd as (di & <- & _). reflexivity.
Qed.

(** * Name resolution *)

Section Resolution.

Variable list_all_raw : dict (list DeviceInfo).
Variable name0 : string.

Let named (d : Device) : bool := String.eqb (name d) name0.

Lemma matching_inner (rn : string) (ds : list Device) : forall acc,
  fold_left
    (fun (acc : list (Device * string)) device =>
       if String.eqb (name device) name0 then acc ++ [(device, rn)] else acc)
    ds acc
  = acc ++ map (fun d => (d, rn)) (filter named ds).
Proof.
  induction ds as [| d ds IH]; intros acc; simpl.
  - now rewrite app_nil_r.
  - rewrite IH. unfold named. destruct (String.eqb (name d) name0); simpl.
    + now rewrite <- app_assoc.
    + reflexivity.
Qed.

Lemma matching_outer (its : list (string * list Device)) : forall acc,
  fold_left
    (fun acc (it : string * list Device) =>
       let (runtime_name, runtime_devices) := it in
       fold_left
         (fun acc device =>
            if String.eqb (name device) name0
            then acc ++ [(device, runtime_name)]
            else acc)
         runtime_devices acc)
    its acc
  = acc ++ flat_map
             (fun it => map (fun d => (d, fst it)) (filter named (snd it))) its.
Proof.
  induction its as [| [rn ds] its IH]; intros acc; simpl.
  - now rewrite app_nil_r.
  - rewrite IH, matching_inner, <- app_assoc. reflexivity.
Qed.

Lemma matching_keyed (inv : dict (list Device)) :
  keyed inv ->
  flat_map (fun it => map (fun d => (d, fst it)) (filter named (snd it))) inv
  = map (fun d => (d, runtime_name d)) (filter named (flat_map snd inv)).
Proof.
  induction inv as [| [k ds] inv IH]; intros Hk; simpl.
  - reflexivity.
  - rewrite filter_app, map_app, IH.
    + f_equal. apply map_ext_in. intros d Hd.
      apply filter_In in Hd. destruct Hd as [Hd _].
      f_equal. symmetry. apply (Hk k ds d); [now left | exact Hd].
    + intros k0 ds0 d Hin. apply (Hk k0 ds0 d). now right.
Qed.

(** The list built by the two loops of [from_name]: the devices with
    the requested name, each next to its own runtime name. *)
Lemma matching_name_devices_eq :
  matching_name_devices list_all_raw name0
  = map (fun d => (d, runtime_name d)) (devices_named list_all_raw name0).
Proof.
  unfold matching_name_devices, devices_named, all_devices, items.
  rewrite matching_outer. simpl.
  apply matching_keyed, from_simctl_info_keyed.
Qed.

End Resolution.

Lemma filter_with_runtime (r : string) (l : list Device) :
  filter (fun device : Device * string => String.eqb (snd device) r)
         (map (fun d => (d, runtime_name d)) l)
  = map (fun d => (d, runtime_name d))
        (filter (fun d => String.eqb (runtime_name d) r) l).
Proof.
  induction l as [| d l IH]; simpl.
  - reflexivity.
  - rewrite IH. now destruct (String.eqb (runtime_name d) r).
Qed.

(** [from_name] read off the devices that carry the name. *)
Lemma from_name_by_devices raw name0 rt :
  from_name raw name0 rt =
  match devices_named raw name0 with
  | [] => Ret None
  | [d] => Ret (Some d)
  | _ :: _ :: _ =>
      match rt with
      | None => Raise (mkExn MultipleMatchesException msg_no_runtime)
      | Some r =>
          match filter (fun d => String.eqb (runtime_name d) (runtime.name r))
                       (devices_named raw name0) with
          | [] => Ret None
          | [d] => Ret (Some d)
          | _ :: _ :: _ =>
              Raise (mkExn MultipleMatchesException msg_even_with_runtime)
          end
      end
  end.
Proof.
  unfold from_name. rewrite matching_name_devices_eq.
  destruct rt as [r |].
  - rewrite filter_with_runtime.
    destruct (devices_named raw name0) as [| d [| d' l]]; try reflexivity.
    destruct (filter _ (d :: d' :: l)) as [| e [| e' l']]; reflexivity.
  - destruct (devices_named raw name0) as [| d [| d' l]]; reflexivity.
Qed.

Lemma devices_named_nil raw name0 :
  (forall d, In d (all_devices (list_all raw)) -> name d <> name0) ->
  devices_named raw name0 = [].
Proof.
  intros H. unfold devices_named.
  induction (all_devices (list_all raw)) as [| d l IH]; simpl.
  - reflexivity.
  - destruct (String.eqb (name d) name0) eqn:E.
    + apply String.eqb_eq in E. exfalso. apply (H d); [now left | exact E].
    + apply IH. intros d' Hd'. apply H. now right.
Qed.

(** C6: when no device of the inventory has the requested name,
    [from_name] returns [None], whatever the runtime argument, and
    raises nothing. *)
Theorem from_name_no_match raw name0 rt :
  (forall d, In d (all_devices (list_all raw)) -> name d <> name0) ->
  from_name raw name0 rt = Ret None /\ raised (from_name raw name0 rt) = None.
Proof.
  intros H. rewrite from_name_by_devices, (devices_named_nil _ _ H).
  split; reflexivity.
Qed.

Lemma from_name_no_match_witness :
  from_name raw_two_runtimes "iPhone XS" None = Ret None /\
  from_name raw_two_runtimes "iPhone XS" (Some (runtime.mkRuntime ios_12_1))
  = Ret None.
Proof.
  split.
  - apply (from_name_no_match raw_two_runtimes "iPhone XS" None).
    simpl. intros d [<- | [<- | [<- | []]]]; discriminate.
  - apply (from_name_no_match raw_two_runtimes "iPhone XS"
             (Some (runtime.mkRuntime ios_12_1))).
    simpl. intros d [<- | [<- | [<- | []]]]; discriminate.
Defined.

(** C5: when exactly one device of the inventory has the requested
    name, [from_name] returns it for every runtime argument, [None]
    and runtimes that no device uses included. *)
Theorem from_name_unique_match raw name0 d rt :
  devices_named raw name0 = [d] ->
  from_name raw name0 rt = Ret (Some d).
Proof.
  intros H. rewrite from_name_by_devices, H. reflexivity.
Qed.

Lemma from_name_unique_match_witness :
  from_name raw_two_runtimes "iPad Air" None = Ret (Some the_ipad) /\
  from_name raw_two_runtimes "iPad Air" (Some (runtime.mkRuntime "tvOS 9.9"))
  = Ret (Some the_ipad).
Proof.
  split.
  - apply (from_name_unique_match raw_two_runtimes "iPad Air" the_ipad None).
    reflexivity.
  - apply (from_name_unique_match raw_two_runtimes "iPad Air" the_ipad
             (Some (runtime.mkRuntime "tvOS 9.9"))).
    reflexivity.
Defined.

(** C4: when exactly two devices have the requested name and their
    runtimes differ, [from_name] without a runtime raises
    [MultipleMatchesException] with the no-runtime message; with the
    runtime of one of them it returns that device; with any runtime whose
    name is equal to neither runtime name it returns [None].  The
    comparison is equality of the whole runtime name. *)
Theorem from_name_two_runtimes raw name0 d1 d2 :
  Permutation (devices_named raw name0) [d1; d2] ->
  runtime_name d1 <> runtime_name d2 ->
  from_name raw name0 None
    = Raise (mkExn MultipleMatchesException msg_no_runtime) /\
  (forall r, runtime.name r = runtime_name d1 ->
             from_name raw name0 (Some r) = Ret (Some d1)) /\
  (forall r, runtime.name r <> runtime_name d1 ->
             runtime.name r <> runtime_name d2 ->
             from_name raw name0 (Some r) = Ret None).
Proof.
  intros HP Hne.
  assert (E1 : forall r, runtime.name r = runtime_name d1 ->
               String.eqb (runtime_name d1) (runtime.name r) = true /\
               String.eqb (runtime_name d2) (runtime.name r) = false).
  { intros r ->. split; [apply String.eqb_refl |].
    apply String.eqb_neq. congruence. }
  assert (E3 : forall r, runtime.name r <> runtime_name d1 ->
               runtime.name r <> runtime_name d2 ->
               String.eqb (runtime_name d1) (runtime.name r) = false /\
               String.eqb (runtime_name d2) (runtime.name r) = false).
  { intros r H1 H2. split; apply String.eqb_neq; congruence. }
  apply Permutation_sym, Permutation_length_2_inv in HP.
  split; [| split].
  - rewrite from_name_by_devices. destruct HP as [-> | ->]; reflexivity.
  - intros r Hr. destruct (E1 r Hr) as [T F].
    rewrite from_name_by_devices.
    destruct HP as [-> | ->]; simpl; rewrite T, F; reflexivity.
  - intros r H1 H2. destruct (E3 r H1 H2) as [F1 F2].
    rewrite from_name_by_devices.
    destruct HP as [-> | ->]; simpl; rewrite F1, F2; reflexivity.
Qed.

(** The last runtime is a substring of both runtime names and equal to
    neither. *)
Lemma from_name_two_runtimes_witness :
  from_name raw_two_runtimes "iPhone 8" None
    = Raise (mkExn MultipleMatchesException msg_no_runtime) /\
  from_name raw_two_runtimes "iPhone 8" (Some (runtime.mkRuntime ios_12_1))
    = Ret (Some the_12_1_iphone) /\
  from_name raw_two_runtimes "iPhone 8"
            (Some (runtime.mkRuntime "com.apple.CoreSimulator.SimRuntime.iOS"))
    = Ret None.
Proof.
  destruct (from_name_two_runtimes raw_two_runtimes "iPhone 8"
              the_12_1_iphone the_11_4_iphone) as (H1 & H2 & H3).
  - apply Permutation_refl.
  - discriminate.
  - split; [exact H1 | split].
    + apply H2. reflexivity.
    + apply H3; discriminate.
Defined.

(** C2, as the code has it: every exception that [from_name] raises is
    a [MultipleMatchesException]; the two ambiguity cases share that one
    class and differ in the message alone: the no-runtime message when
    several devices have the name and no runtime was passed, the
    even-with-runtime message when several devices still match the
    runtime that was passed. *)
Theorem from_name_raises_one_class raw name0 rt e :
  from_name raw name0 rt = Raise e ->
  exn_kind e = MultipleMatchesException /\
  match rt with
  | None =>
      exn_msg e = msg_no_runtime /\ 2 <= length (devices_named raw name0)
  | Some r =>
      exn_msg e = msg_even_with_runtime /\
      2 <= length (filter (fun d => String.eqb (runtime_name d) (runtime.name r))
                          (devices_named raw name0))
  end.
Proof.
  rewrite from_name_by_devices.
  destruct (devices_named raw name0) as [| d [| d' l]];
    try discriminate.
  destruct rt as [r |].
  - destruct (filter _ (d :: d' :: l)) as [| x [| x' l']]; try discriminate.
    intros H. injection H as <-. simpl. repeat split. lia.
  - intros H. injection H as <-. simpl. repeat split. lia.
Qed.

Lemma from_name_raises_one_class_witness :
  exn_kind (mkExn MultipleMatchesException msg_no_runtime)
  = MultipleMatchesException /\
  exn_kind (mkExn MultipleMatchesException msg_even_with_runtime)
  = MultipleMatchesException.
Proof.
  split.
  - apply (from_name_raises_one_class raw_two_runtimes "iPhone 8" None).
    reflexivity.
  - apply (from_name_raises_one_class raw_same_runtime "iPhone 8"
             (Some (runtime.mkRuntime ios_12_1))).
    reflexivity.
Defined.

(** C2 as stated fails: the no-runtime case and the even-with-runtime
    case raise exceptions of the same class, with different messages. *)
Lemma ambiguity_cases_share_class :
  from_name raw_two_runtimes "iPhone 8" None
    = Raise (mkExn MultipleMatchesException msg_no_runtime) /\
  from_name raw_same_runtime "iPhone 8" (Some (runtime.mkRuntime ios_12_1))
    = Raise (mkExn MultipleMatchesException msg_even_with_runtime) /\
  raised_kind (from_name raw_two_runtimes "iPhone 8" None)
    = raised_kind (from_name raw_same_runtime "iPhone 8"
                             (Some (runtime.mkRuntime ios_12_1))) /\
  msg_no_runtime <> msg_even_with_runtime.
Proof.
  do 3 (split; [reflexivity |]). discriminate.
Qed.

(** * Lookup by identifier *)

Lemma scan_devices_find identifier devices :
  scan_devices identifier devices
  = find (fun d => String.eqb (udid d) identifier) devices.
Proof.
  induction devices as [| d ds IH]; simpl; [reflexivity |].
  now rewrite IH.
Qed.

Lemma find_over_app (A : Type) (f : A -> bool) (l1 l2 : list A) :
  find f (l1 ++ l2) =
  match find f l1 with Some x => Some x | None => find f l2 end.
Proof.
  induction l1 as [| x l1 IH]; simpl; [reflexivity |].
  now destruct (f x).
Qed.

Lemma scan_items_find identifier its :
  scan_items identifier its
  = find (fun d => String.eqb (udid d) identifier) (flat_map snd its).
Proof.
  induction its as [| [k ds] its IH]; simpl; [reflexivity |].
  rewrite find_over_app, scan_devices_find, IH. reflexivity.
Qed.

Lemma from_identifier_by_find raw identifier :
  from_identifier raw identifier =
  match find (fun d => String.eqb (udid d) identifier)
             (all_devices (list_all raw)) with
  | Some device => Ret device
  | None =>
      Raise (mkExn DeviceNotFoundError ("No device with ID: " ++ identifier))
  end.
Proof.
  unfold from_identifier. now rewrite scan_items_find.
Qed.

(** C9: [from_identifier] raises [DeviceNotFoundError] exactly when no
    device of the inventory has the requested udid; when some device has
    it, [from_identifier] returns a device of the inventory with that
    udid (the device itself when the udid is unique), whatever the names
    of the devices are. *)
Theorem from_identifier_spec raw identifier :
  ((forall d, In d (all_devices (list_all raw)) -> udid d <> identifier) <->
   from_identifier raw identifier
   = Raise (mkExn DeviceNotFoundError ("No device with ID: " ++ identifier)))
  /\
  ((forall d, In d (all_devices (list_all raw)) -> udid d <> identifier) <->
   raised_kind (from_identifier raw identifier) = Some DeviceNotFoundError)
  /\
  (forall d, In d (all_devices (list_all raw)) -> udid d = identifier ->
     exists d', from_identifier raw identifier = Ret d' /\
                In d' (all_devices (list_all raw)) /\ udid d' = identifier)
  /\
  (forall d, In d (all_devices (list_all raw)) -> udid d = identifier ->
     (forall d', In d' (all_devices (list_all raw)) ->
                 udid d' = identifier -> d' = d) ->
     from_identifier raw identifier = Ret d).
Proof.
  rewrite from_identifier_by_find.
  set (f := fun d => String.eqb (udid d) identifier).
  set (l := all_devices (list_all raw)).
  destruct (find f l) as [x |] eqn:E.
  - apply find_some in E. destruct E as [Hin Hx].
    apply String.eqb_eq in Hx.
    split; [| split; [| split]].
    + split; [| discriminate]. intros H. exfalso. now apply (H x).
    + split; [| discriminate]. intros H. exfalso. now apply (H x).
    + intros d _ _. exists x. auto.
    + intros d _ _ Huniq. f_equal. now apply Huniq.
  - assert (Hnone : forall d, In d l -> udid d <> identifier).
    { intros d Hd. apply (find_none f l E) in Hd. now apply String.eqb_neq. }
    split; [| split; [| split]].
    + split; auto.
    + split; auto.
    + intros d Hd Hu. exfalso. now apply (Hnone d).
    + intros d Hd Hu. exfalso. now apply (Hnone d).
Qed.

(** Two devices of the sample inventory are named "iPhone 8"; lookup
    by udid tells them apart, and an unknown udid raises. *)
Lemma from_identifier_spec_witness :
  from_identifier raw_two_runtimes "AAAA-0002" = Ret the_11_4_iphone /\
  from_identifier raw_two_runtimes "FFFF-0000"
  = Raise (mkExn DeviceNotFoundError "No device with ID: FFFF-0000").
Proof.
  split.
  - destruct (from_identifier_spec raw_two_runtimes "AAAA-0002")
      as (_ & _ & _ & H).
    apply H.
    + simpl. right. right. left. reflexivity.
    + reflexivity.
    + simpl. intros d' [<- | [<- | [<- | []]]]; try discriminate. reflexivity.
  - destruct (from_identifier_spec raw_two_runtimes "FFFF-0000")
      as ((H & _) & _).
    apply H. simpl. intros d [<- | [<- | [<- | []]]]; discriminate.
Defined.

(** * The inventory of a well-formed listing *)

Lemma getitem_app_fresh (V : Type) (d1 d2 : dict V) k :
  ~ In k (keys d1) -> getitem (d1 ++ d2) k = getitem d2 k.
Proof.
  induction d1 as [| [k' v] d1 IH]; simpl; intros H; [reflexivity |].
  destruct (String.eqb k' k) eqn:E.
  - apply String.eqb_eq in E. exfalso. apply H. now left.
  - apply IH. intros Hin. apply H. now right.
Qed.

Lemma setitem_fresh (V : Type) (d : dict V) k v :
  ~ In k (keys d) -> setitem d k v = d ++ [(k, v)].
Proof.
  induction d as [| [k' v'] d IH]; simpl; intros H; [reflexivity |].
  destruct (String.eqb k' k) eqn:E.
  - apply String.eqb_eq in E. exfalso. apply H. now left.
  - f_equal. apply IH. intros Hin. apply H. now right.
Qed.

(** X1: on a listing whose keys are distinct, as the keys of a
    dictionary are, [from_simctl_info] keeps the order of the runtimes
    and of the devices and builds each device with the key of its
    list: nothing is dropped, added or moved. *)
Lemma from_simctl_info_map info :
  NoDup (keys info) ->
  from_simctl_info info
  = map (fun it : string * list DeviceInfo =>
           (fst it, map (fun di => Device_init di (fst it)) (snd it)))
        info.
Proof.
  intros Hnd. unfold from_simctl_info.
  set (conv := fun it : string * list DeviceInfo =>
                 (fst it, map (fun di => Device_init di (fst it)) (snd it))).
  change (@nil (string * list Device)) with (map conv []).
  assert (G : forall todo done, info = done ++ todo ->
    fold_left
      (fun all_devices runtime_name =>
         match getitem info runtime_name with
         | Some runtime_devices_info =>
             setitem all_devices runtime_name
               (fold_left
                  (fun devices device_info =>
                     devices ++ [Device_init device_info runtime_name])
                  runtime_devices_info [])
         | None => all_devices
         end)
      (keys todo) (map conv done)
    = map conv info).
  { induction todo as [| [k l] todo IH]; intros done E; simpl.
    - now rewrite E, app_nil_r.
    - assert (Hk : ~ In k (keys done)).
      { rewrite E in Hnd. unfold keys in *. rewrite map_app in Hnd. simpl in Hnd.
        apply NoDup_remove_2 in Hnd. intros Hin. apply Hnd.
        apply in_or_app. now left. }
      rewrite E at 1. rewrite getitem_app_fresh by exact Hk. simpl.
      rewrite String.eqb_refl, fold_append_map. simpl.
      rewrite setitem_fresh.
      + change [(k, map (fun di => Device_init di k) l)]
          with (map conv [(k, l)]).
        rewrite <- map_app. apply IH. now rewrite <- app_assoc.
      + unfold keys in *. rewrite map_map. simpl. exact Hk. }
  apply (G info []). reflexivity.
Qed.

Lemma from_simctl_info_map_witness :
  list_all raw_two_runtimes
  = [ (ios_12_1, [the_12_1_iphone; the_ipad]);
      (ios_11_4, [the_11_4_iphone]) ].
Proof.
  unfold list_all. rewrite from_simctl_info_map.
  - reflexivity.
  - simpl. repeat constructor; simpl; intuition discriminate.
Defined.

Lemma setitem_In (V : Type) (d : dict V) k v k0 v0 :
  In (k0, v0) (setitem d k v) -> (k0 = k /\ v0 = v) \/ In (k0, v0) d.
Proof.
  induction d as [| [k' v'] d IH]; simpl.
  - intros [E | []]. injection E as <- <-. now left.
  - destruct (String.eqb k' k) eqn:Ek.
    + apply String.eqb_eq in Ek. subst k'.
      intros [E | H]; [injection E as <- <-; now left | right; now right].
    + intros [E | H]; [right; now left |].
      destruct (IH H) as [F | F]; [now left | right; now right].
Qed.

(** X2: whatever the listing, every device of the inventory that
    [from_simctl_info] builds comes from an entry of the listing under
    the same runtime key: it is [Device(device_info, key)] for one of the
    dictionaries listed under that key, so its [runtime_name] is the key
    it sits under and it has no cached runtime. *)
Theorem inventory_provenance info k ds d :
  In (k, ds) (from_simctl_info info) -> In d ds ->
  (exists l di, getitem info k = Some l /\ In di l /\ d = Device_init di k) /\
  runtime_name d = k /\ _runtime d = None.
Proof.
  intros Hin Hd.
  assert (G : exists l di,
             getitem info k = Some l /\ In di l /\ d = Device_init di k).
  { revert Hin. unfold from_simctl_info.
    assert (Hnil : forall k0 ds0, In (k0, ds0) (@nil (string * list Device)) ->
              forall d0, In d0 ds0 -> exists l di,
                getitem info k0 = Some l /\ In di l /\ d0 = Device_init di k0)
      by (intros k0 ds0 []).
    revert Hnil. generalize (@nil (string * list Device)).
    induction (keys info) as [| key ks IH]; intros acc Hacc; simpl.
    - intros H. exact (Hacc k ds H d Hd).
    - apply IH. destruct (getitem info key) as [l |] eqn:El; [| exact Hacc].
      intros k0 ds0 H0 d0 Hd0. apply setitem_In in H0.
      destruct H0 as [[-> ->] | H0]; [| exact (Hacc k0 ds0 H0 d0 Hd0)].
      rewrite fold_append_map in Hd0. simpl in Hd0.
      apply in_map_iff in Hd0. destruct Hd0 as (di & <- & Hdi).
      exists l, di. auto. }
  split; [exact G |].
  destruct G as (l & di & _ & _ & ->). split; reflexivity.
Qed.

Lemma inventory_provenance_witness :
  runtime_name the_ipad = ios_12_1 /\ _runtime the_ipad = None.
Proof.
  apply (inventory_provenance raw_two_runtimes ios_12_1
           [the_12_1_iphone; the_ipad] the_ipad).
  - simpl. left. reflexivity.
  - simpl. right. left. reflexivity.
Defined.

(** * What name resolution answers *)

Lemma devices_named_In raw name0 d :
  In d (devices_named raw name0) <->
  In d (all_devices (list_all raw)) /\ name d = name0.
Proof.
  unfold devices_named. rewrite filter_In, String.eqb_eq. reflexivity.
Qed.

Lemma filter_nil_iff (A : Type) (f : A -> bool) (l : list A) :
  filter f l = [] <-> forall x, In x l -> f x = false.
Proof.
  induction l as [| a l IH]; simpl.
  - split; [intros _ x [] | reflexivity].
  - destruct (f a) eqn:E.
    + split; [discriminate |]. intros H.
      specialize (H a (or_introl eq_refl)). congruence.
    + rewrite IH. split.
      * intros H x [<- | Hx]; [exact E | now apply H].
      * intros H x Hx. apply H. now right.
Qed.

(** X3: a device that [from_name] returns is a device of the inventory
    and has the requested name; it is either the only device of that
    name, or a runtime was passed, several devices have the name and it
    is the only one of them whose runtime name equals the runtime's. *)
Theorem from_name_sound raw name0 rt d :
  from_name raw name0 rt = Ret (Some d) ->
  In d (all_devices (list_all raw)) /\ name d = name0 /\
  (devices_named raw name0 = [d] \/
   exists r, rt = Some r /\ 2 <= length (devices_named raw name0) /\
             runtime_name d = runtime.name r /\
             filter (fun x => String.eqb (runtime_name x) (runtime.name r))
                    (devices_named raw name0) = [d]).
Proof.
  rewrite from_name_by_devices.
  destruct (devices_named raw name0) as [| x [| x' l]] eqn:E.
  - discriminate.
  - intros H. injection H as ->.
    assert (Hd : In d (devices_named raw name0)) by (rewrite E; now left).
    apply devices_named_In in Hd. destruct Hd as [H1 H2]. auto.
  - destruct rt as [r |]; [| discriminate].
    destruct (filter _ (x :: x' :: l)) as [| y [| y' l']] eqn:F;
      try discriminate.
    intros H. injection H as ->.
    assert (Hf : In d (filter
                         (fun x => String.eqb (runtime_name x) (runtime.name r))
                         (x :: x' :: l))) by (rewrite F; now left).
    apply filter_In in Hf. destruct Hf as [Hd Hr].
    apply String.eqb_eq in Hr.
    rewrite <- E in Hd. apply devices_named_In in Hd. destruct Hd as [H1 H2].
    split; [exact H1 | split; [exact H2 |]].
    right. exists r. simpl. repeat split; try assumption. lia.
Qed.

Lemma from_name_sound_witness :
  In the_11_4_iphone (all_devices (list_all raw_two_runtimes)) /\
  name the_11_4_iphone = "iPhone 8".
Proof.
  destruct (from_name_sound raw_two_runtimes "iPhone 8"
              (Some (runtime.mkRuntime ios_11_4)) the_11_4_iphone)
    as (H1 & H2 & _).
  - reflexivity.
  - split; [exact H1 | exact H2].
Defined.

(** X4: [from_name] answers [None] in exactly two situations: no device
    of the inventory has the name, or a runtime was passed, at least two
    devices have the name and none of them has that runtime name.  A
    single device of the name in another runtime is not one of them. *)
Theorem from_name_none_iff raw name0 rt :
  from_name raw name0 rt = Ret None <->
  (forall d, In d (all_devices (list_all raw)) -> name d <> name0) \/
  (exists r, rt = Some r /\ 2 <= length (devices_named raw name0) /\
             forall d, In d (all_devices (list_all raw)) -> name d = name0 ->
                       runtime_name d <> runtime.name r).
Proof.
  rewrite from_name_by_devices. split.
  - destruct (devices_named raw name0) as [| x [| x' l]] eqn:E.
    + intros _. left. intros d Hd Hn.
      assert (H : In d (devices_named raw name0))
        by (apply devices_named_In; auto).
      rewrite E in H. destruct H.
    + discriminate.
    + destruct rt as [r |]; [| discriminate].
      destruct (filter _ (x :: x' :: l)) as [| y [| y' l']] eqn:F;
        try discriminate.
      intros _. right. exists r. split; [reflexivity |].
      split; [simpl; lia |].
      intros d Hd Hn Hr.
      assert (H : In d (x :: x' :: l))
        by (rewrite <- E; apply devices_named_In; auto).
      apply (proj1 (filter_nil_iff _ _ _) F) in H.
      apply String.eqb_neq in H. contradiction.
  - intros [H | (r & -> & Hlen & H)].
    + now rewrite (devices_named_nil _ _ H).
    + destruct (devices_named raw name0) as [| x [| x' l]] eqn:E;
        try (simpl in Hlen; lia).
      assert (F : filter
                    (fun d => String.eqb (runtime_name d) (runtime.name r))
                    (x :: x' :: l) = []).
      { apply filter_nil_iff. intros d Hd. apply String.eqb_neq.
        rewrite <- E in Hd. apply devices_named_In in Hd.
        destruct Hd as [H1 H2]. now apply H. }
      now rewrite F.
Qed.

Lemma from_name_none_iff_witness :
  from_name raw_same_runtime "iPhone 8" (Some (runtime.mkRuntime "tvOS 12.1"))
  = Ret None.
Proof.
  apply (proj2 (from_name_none_iff raw_same_runtime "iPhone 8"
                  (Some (runtime.mkRuntime "tvOS 12.1")))).
  right. exists (runtime.mkRuntime "tvOS 12.1").
  split; [reflexivity | split].
  - simpl. lia.
  - simpl. intros d [<- | [<- | [<- | []]]] _; discriminate.
Defined.

(** X5: ambiguity always raises.  When at least two devices have the
    name and no runtime is passed, [from_name] raises
    [MultipleMatchesException] with the no-runtime message; when a
    runtime is passed and at least two devices of the name have that
    runtime name, it raises it with the even-with-runtime message. *)
Theorem from_name_ambiguous raw name0 :
  (2 <= length (devices_named raw name0) ->
   from_name raw name0 None
   = Raise (mkExn MultipleMatchesException msg_no_runtime)) /\
  (forall r,
     2 <= length (filter (fun d => String.eqb (runtime_name d) (runtime.name r))
                         (devices_named raw name0)) ->
     from_name raw name0 (Some r)
     = Raise (mkExn MultipleMatchesException msg_even_with_runtime)).
Proof.
  split.
  - intros H. rewrite from_name_by_devices.
    destruct (devices_named raw name0) as [| x [| x' l]];
      try (simpl in H; lia). reflexivity.
  - intros r H. rewrite from_name_by_devices.
    destruct (devices_named raw name0) as [| x [| x' l]] eqn:E.
    + simpl in H. lia.
    + simpl in H. destruct (String.eqb (runtime_name x) (runtime.name r));
        simpl in H; lia.
    + destruct (filter _ (x :: x' :: l)) as [| y [| y' l']];
        try (simpl in H; lia). reflexivity.
Qed.

(** Three devices of one name, two of them in the runtime passed. *)
Lemma from_name_ambiguous_witness :
  from_name raw_same_runtime "iPhone 8" None
  = Raise (mkExn MultipleMatchesException msg_no_runtime) /\
  from_name raw_same_runtime "iPhone 8" (Some (runtime.mkRuntime ios_12_1))
  = Raise (mkExn MultipleMatchesException msg_even_with_runtime).
Proof.
  destruct (from_name_ambiguous raw_same_runtime "iPhone 8") as [H1 H2].
  split.
  - apply H1. simpl. lia.
  - apply H2. simpl. lia.
Defined.

(** X6: when exactly one of the devices that have the name has the
    runtime name of the runtime passed, [from_name] returns that one,
    however many devices of the name the other runtimes hold. *)
Theorem from_name_runtime_decides raw name0 r d :
  filter (fun x => String.eqb (runtime_name x) (runtime.name r))
         (devices_named raw name0) = [d] ->
  from_name raw name0 (Some r) = Ret (Some d).
Proof.
  intros F. rewrite from_name_by_devices, F.
  destruct (devices_named raw name0) as [| x [| x' l]].
  - discriminate F.
  - simpl in F.
    destruct (String.eqb (runtime_name x) (runtime.name r));
      [injection F as -> | discriminate F]. reflexivity.
  - reflexivity.
Qed.

Lemma from_name_runtime_decides_witness :
  from_name raw_same_runtime "iPhone 8" (Some (runtime.mkRuntime ios_11_4))
  = Ret (Some the_11_4_iphone).
Proof.
  apply from_name_runtime_decides. reflexivity.
Defined.

(** * What lookup by identifier answers *)

Lemma find_first (A : Type) (f : A -> bool) (l : list A) (x : A) :
  find f l = Some x <->
  exists l1 l2, l = l1 ++ x :: l2 /\ f x = true /\
                forall y, In y l1 -> f y = false.
Proof.
  split.
  - induction l as [| a l IH]; simpl; [discriminate |].
    destruct (f a) eqn:E.
    + intros H. injection H as ->. exists [], l. simpl. intuition.
    + intros H. destruct (IH H) as (l1 & l2 & -> & Hx & Hl1).
      exists (a :: l1), l2. simpl. repeat split; try assumption.
      intros y [<- | Hy]; [exact E | now apply Hl1].
  - intros (l1 & l2 & -> & Hx & Hl1).
    induction l1 as [| a l1 IH]; simpl.
    + now rewrite Hx.
    + rewrite (Hl1 a (or_introl eq_refl)). apply IH.
      intros y Hy. apply Hl1. now right.
Qed.

(** X7: [from_identifier] returns the first device that has the udid,
    in the order of the inventory (runtime by runtime, then the order of
    each list): it returns [d] exactly when [d] has the udid and no
    device before it has. *)
Theorem from_identifier_first raw identifier d :
  from_identifier raw identifier = Ret d <->
  exists before after,
    all_devices (list_all raw) = before ++ d :: after /\
    udid d = identifier /\
    forall y, In y before -> udid y <> identifier.
Proof.
  rewrite from_identifier_by_find. split.
  - destruct (find _ _) as [x |] eqn:E; [| discriminate].
    intros H. injection H as ->.
    apply find_first in E. destruct E as (l1 & l2 & E & Hx & Hl1).
    exists l1, l2. rewrite String.eqb_eq in Hx.
    repeat split; try assumption.
    intros y Hy. apply String.eqb_neq. now apply Hl1.
  - intros (l1 & l2 & E & Hx & Hl1).
    assert (F : find (fun d => String.eqb (udid d) identifier)
                     (all_devices (list_all raw)) = Some d).
    { apply find_first. exists l1, l2. rewrite String.eqb_eq.
      repeat split; try assumption.
      intros y Hy. apply String.eqb_neq. now apply Hl1. }
    now rewrite F.
Qed.

Lemma from_identifier_first_witness :
  from_identifier raw_two_runtimes "AAAA-0003" = Ret the_ipad.
Proof.
  apply (proj2 (from_identifier_first raw_two_runtimes "AAAA-0003" the_ipad)).
  exists [the_12_1_iphone], [the_11_4_iphone].
  split; [reflexivity | split; [reflexivity |]].
  intros y [<- | []]. discriminate.
Defined.

Lemma NoDup_map_In_inj (A B : Type) (f : A -> B) (l : list A) (x y : A) :
  NoDup (map f l) -> In x l -> In y l -> f x = f y -> x = y.
Proof.
  induction l as [| a l IH]; simpl; intros Hnd Hx Hy E; [destruct Hx |].
  inversion Hnd as [| b m Hnot Hnd']. subst.
  destruct Hx as [-> | Hx], Hy as [-> | Hy].
  - reflexivity.
  - exfalso. apply Hnot. rewrite E. now apply in_map.
  - exfalso. apply Hnot. rewrite <- E. now apply in_map.
  - now apply IH.
Qed.

Lemma from_name_returns_named raw name0 rt d :
  from_name raw name0 rt = Ret (Some d) -> In d (devices_named raw name0).
Proof.
  rewrite from_name_by_devices.
  destruct (devices_named raw name0) as [| x [| x' l]].
  - discriminate.
  - intros H. injection H as ->. now left.
  - destruct rt as [r |]; [| discriminate].
    destruct (filter _ (x :: x' :: l)) as [| y [| y' l']] eqn:F;
      try discriminate.
    intros H. injection H as ->.
    assert (Hf : In d (filter
                         (fun x => String.eqb (runtime_name x) (runtime.name r))
                         (x :: x' :: l))) by (rewrite F; now left).
    apply filter_In in Hf. tauto.
Qed.

(** X8: on an inventory whose udids are distinct, the device that
    [from_name] returns is found again by [from_identifier] under its
    own udid. *)
Theorem from_name_then_from_identifier raw name0 rt d :
  NoDup (map udid (all_devices (list_all raw))) ->
  from_name raw name0 rt = Ret (Some d) ->
  from_identifier raw (udid d) = Ret d.
Proof.
  intros Hnd H. apply from_name_returns_named, devices_named_In in H.
  destruct H as [Hin _]. rewrite from_identifier_by_find.
  destruct (find _ _) as [x |] eqn:E.
  - apply find_some in E. destruct E as [Hx Hu].
    apply String.eqb_eq in Hu.
    f_equal. exact (NoDup_map_In_inj _ _ _ _ _ _ Hnd Hx Hin Hu).
  - apply (find_none _ _ E) in Hin. rewrite String.eqb_refl in Hin.
    discriminate.
Qed.

Lemma from_name_then_from_identifier_witness :
  from_identifier raw_two_runtimes (udid the_11_4_iphone)
  = Ret the_11_4_iphone.
Proof.
  apply (from_name_then_from_identifier raw_two_runtimes "iPhone 8"
           (Some (runtime.mkRuntime ios_11_4))).
  - simpl. repeat constructor; simpl; intuition discriminate.
  - reflexivity.
Defined.

(** * What pairing answers *)

(** X9: [pair] raises [InvalidDeviceError] exactly when neither runtime
    name holds "iOS" or neither holds "watchOS"; in every other case it
    goes on to [pair_devices] and raises nothing itself. *)
Theorem pair_raises_iff (a b : Device) :
  (pair a b
   = Raise (mkExn InvalidDeviceError
              "One device should be a watch and the other a phone") <->
   (phone_capable a || phone_capable b) && (watch_capable a || watch_capable b)
   = false) /\
  (pairing_request (pair a b) <> None <->
   (phone_capable a || phone_capable b) && (watch_capable a || watch_capable b)
   = true).
Proof.
  unfold pair, pair_roles, phone_capable, watch_capable.
  destruct (str_in "iOS" (runtime_name a)),
           (str_in "iOS" (runtime_name b)),
           (str_in "watchOS" (runtime_name a)),
           (str_in "watchOS" (runtime_name b));
    simpl; repeat split; intros H; try discriminate; try reflexivity;
    try (exfalso; now apply H).
Qed.

Lemma pair_raises_iff_witness :
  pair a_tv a_watch
  = Raise (mkExn InvalidDeviceError
             "One device should be a watch and the other a phone") /\
  pairing_request (pair a_watch an_iphone) <> None.
Proof.
  split.
  - apply (proj2 (proj1 (pair_raises_iff a_tv a_watch))). reflexivity.
  - apply (proj2 (proj2 (pair_raises_iff a_watch an_iphone))). reflexivity.
Defined.

(** X10: the devices that [pair] passes to [pair_devices] are always
    taken from its two devices, the watch holds "watchOS" in its runtime
    name and the phone holds "iOS"; for each role the argument is taken
    when it qualifies, and the receiver only when the argument does
    not. *)
Theorem pair_request_sound (a b w p : Device) :
  pairing_request (pair a b) = Some (w, p) ->
  watch_capable w = true /\ phone_capable p = true /\
  (w = b \/ (w = a /\ watch_capable b = false)) /\
  (p = b \/ (p = a /\ phone_capable b = false)).
Proof.
  unfold pair, pair_roles, phone_capable, watch_capable.
  destruct (str_in "iOS" (runtime_name a)) eqn:Hpa,
           (str_in "iOS" (runtime_name b)) eqn:Hpb,
           (str_in "watchOS" (runtime_name a)) eqn:Hwa,
           (str_in "watchOS" (runtime_name b)) eqn:Hwb;
    simpl; intros H; try discriminate; injection H as <- <-; auto 8.
Qed.

Lemma pair_request_sound_witness :
  watch_capable a_watch = true /\ phone_capable an_iphone = true.
Proof.
  destruct (pair_request_sound an_iphone a_watch a_watch an_iphone)
    as (H1 & H2 & _).
  - reflexivity.
  - split; [exact H1 | exact H2].
Defined.

(** * The cached runtime *)

(** X11: once [runtime()] has answered a runtime, the device keeps it:
    a further [runtime()] call answers the same runtime and leaves the
    device as it is whatever the lookup would answer by then, a runtime
    of another name or an exception. *)
Theorem runtime_is_cached (Ext : Type)
        (lookup lookup' : string -> Ext + runtime.Runtime)
        (d d' : Device) (r : runtime.Runtime) :
  Device_runtime Ext lookup d = (inr r, d') ->
  Device_runtime Ext lookup' d' = (inr r, d') /\
  runtime_name d' = runtime_name d /\ udid d' = udid d.
Proof.
  unfold Device_runtime. destruct (_runtime d) as [c |] eqn:C.
  - intros H. injection H as <- <-. rewrite C. auto.
  - destruct (lookup (runtime_name d)) as [e | r0]; [discriminate |].
    intros H. injection H as <- <-. simpl. auto.
Qed.

(** The second call is made when the lookup has started to raise. *)
Lemma runtime_is_cached_witness :
  Device_runtime unit no_runtime
    (snd (Device_runtime unit known_runtime an_iphone))
  = (inr (runtime.mkRuntime (runtime_name an_iphone)),
     snd (Device_runtime unit known_runtime an_iphone)).
Proof.
  apply (runtime_is_cached unit known_runtime no_runtime an_iphone).
  reflexivity.
Defined.

(** X12: after an [upgrade] that returns, the device carries the name
    of the new runtime and no cached runtime, so the next [runtime()]
    call answers what the lookup of the new name answers, whatever was
    cached before; name, udid, state and availability are as before.  An
    [upgrade] that raises leaves no new device. *)
Theorem upgrade_then_runtime (Ext : Type)
        (up : Device -> runtime.Runtime -> option Ext)
        (lookup : string -> Ext + runtime.Runtime)
        (d d' : Device) (rt : runtime.Runtime) :
  upgrade Ext up d rt = inr d' ->
  up d rt = None /\
  runtime_name d' = runtime.name rt /\
  fst (Device_runtime Ext lookup d') = lookup (runtime.name rt) /\
  name d' = name d /\ udid d' = udid d /\
  state d' = state d /\ availability d' = availability d.
Proof.
  unfold upgrade. destruct (up d rt) as [e |]; [discriminate |].
  intros H. injection H as <-. unfold Device_runtime. simpl.
  destruct (lookup (runtime.name rt)); simpl; auto 8.
Qed.

(** A phone with a cached iOS runtime is upgraded; the next [runtime()]
    call answers the runtime of the new name. *)
Lemma upgrade_then_runtime_witness :
  fst (Device_runtime unit known_runtime
         (after_call unit info_booted known_runtime upgrade_ok
            (snd (Device_runtime unit known_runtime an_iphone))
            (call_upgrade (runtime.mkRuntime ios_11_4))))
  = inr (runtime.mkRuntime ios_11_4).
Proof.
  destruct (upgrade_then_runtime unit upgrade_ok known_runtime
              (snd (Device_runtime unit known_runtime an_iphone))
              (after_call unit info_booted known_runtime upgrade_ok
                 (snd (Device_runtime unit known_runtime an_iphone))
                 (call_upgrade (runtime.mkRuntime ios_11_4)))
              (runtime.mkRuntime ios_11_4)) as (_ & _ & H & _).
  - reflexivity.
  - exact H.
Defined.

Section Coherence.

Variable Ext : Type.
Variable info : string -> Ext + option DeviceInfo.
Variable lookup : string -> Ext + runtime.Runtime.
Variable up : Device -> runtime.Runtime -> option Ext.




End Coherence.



(** * The printed form *)

Lemma length_append (a b : string) :
  String.length (a ++ b) = String.length a + String.length b.
Proof.
  induction a as [| c a IH]; simpl; [reflexivity | now rewrite IH].
Qed.

Lemma append_inv_same_length (a b s1 s2 : string) :
  (a ++ s1)%string = (b ++ s2)%string ->
  String.length s1 = String.length s2 ->
  a = b /\ s1 = s2.
Proof.
  revert b. induction a as [| c a IH]; intros [| c' b] E L; simpl in *.
  - auto.
  - exfalso. rewrite E in L. simpl in L. rewrite length_append in L. lia.
  - exfalso. rewrite <- E in L. simpl in L. rewrite length_append in L.
    lia.
  - injection E as -> E. destruct (IH b E L) as [-> ->]. auto.
Qed.

(** X14: [__str__] is the name, a colon and a space, then the udid;
    among devices whose udids have the same length, as simctl's udids
    have, two devices print alike only when they have the same name and
    the same udid. *)
Theorem Device_str_inj (d1 d2 : Device) :
  String.length (udid d1) = String.length (udid d2) ->
  Device_str d1 = Device_str d2 ->
  name d1 = name d2 /\ udid d1 = udid d2.
Proof.
  unfold Device_str. intros L E.
  apply append_inv_same_length in E.
  - destruct E as [-> E]. injection E as ->. auto.
  - simpl. now rewrite L.
Qed.

(** The same device listed before and after it was booted. *)
Lemma Device_str_inj_witness :
  name (Device_init (mkDeviceInfo "Booted" "(available)" "iPhone 8" "AAAA-0001")
                    ios_12_1)
  = name the_12_1_iphone /\
  udid (Device_init (mkDeviceInfo "Booted" "(available)" "iPhone 8" "AAAA-0001")
                    ios_12_1)
  = udid the_12_1_iphone.
Proof.
  apply Device_str_inj; reflexivity.
Defined.
